(** * flux-kluctl-controller: the KluctlDeployment API helpers and the
      controller's indexers, embedded and verified.

    Two Go packages are covered:
    - [api/v1alpha1] (the KluctlDeployment type, its condition helpers and
      its timeout / retry-interval getters), embedded in [Module V1alpha1];
    - [controllers/kluctl_indexers.go] (the field indexer and the
      artifact-event mapper), embedded in [Module Controllers].

    Go strings are byte sequences; they are [string] here (a sequence of
    8-bit [ascii]), so that [len] is [String.length] and slicing is
    [substring].  Go's [int], [int64] and [time.Duration] are [Z]; the one
    arithmetic operation of the code that can leave the int64 range has its
    wrap-around written out. *)

From Stdlib Require Import ZArith String Ascii List Lia Bool.
From stdpp Require Import base list strings.

Local Open Scope string_scope.
Local Open Scope Z_scope.

(** ** Go base types *)

Module Go.

(** Two's-complement wrap-around of a mathematical integer into int64. *)
Definition wrap64 (z : Z) : Z := (z + 2 ^ 63) mod 2 ^ 64 - 2 ^ 63.

Definition MinInt64 : Z := - 2 ^ 63.
Definition MaxInt64 : Z := 2 ^ 63 - 1.

Definition in_int64 (z : Z) : Prop := MinInt64 <= z <= MaxInt64.

(** [a - b] on int64 operands. *)
Definition sub64 (a b : Z) : Z := wrap64 (a - b).

(** [len(s)] of a string, an [int]. *)
Definition len (s : string) : Z := Z.of_nat (String.length s).

(** [s[0:hi]]: a slice expression panics unless [0 <= hi <= len(s)]. *)
Definition slice_to (s : string) (hi : Z) : option string :=
  if (0 <=? hi) && (hi <=? len s)
  then Some (substring 0%nat (Z.to_nat hi) s)
  else None.

(** [time.Duration]: int64 nanoseconds. *)
Definition Duration : Type := Z.
Definition Nanosecond : Duration := 1.
Definition Second : Duration := 1000000000.
Definition Minute : Duration := 60 * Second.

(** [time.Time], as nanoseconds since the zero instant. *)
Definition Time : Type := Z.
Definition IsZero (t : Time) : bool := t =? 0.

End Go.

(** ** k8s.io/apimachinery/pkg/apis/meta/v1 and fluxcd/pkg/apis/meta *)

Module Metav1.

Record TypeMeta := mkTypeMeta {
  Kind : string;
  APIVersion : string
}.

(** Of ObjectMeta the sources read the name, the namespace and the
    generation. *)
Record ObjectMeta := mkObjectMeta {
  Name : string;
  Namespace : string;
  Generation : Z
}.

(** [type ConditionStatus string] with its three constants. *)
Definition ConditionStatus : Type := string.
Definition ConditionTrue : ConditionStatus := "True".
Definition ConditionFalse : ConditionStatus := "False".
Definition ConditionUnknown : ConditionStatus := "Unknown".

Record Condition := mkCondition {
  Type_ : string;
  Status : ConditionStatus;
  ObservedGeneration : Z;
  LastTransitionTime : Go.Time;
  Reason : string;
  Message : string
}.

End Metav1.

Module Meta.

Definition ReadyCondition : string := "Ready".
Definition ProgressingReason : string := "Progressing".

Record NamespacedObjectReference := mkNamespacedObjectReference {
  Name : string;
  Namespace : string
}.

Record ReconcileRequestStatus := mkReconcileRequestStatus {
  LastHandledReconcileAt : string
}.

End Meta.

(** ** Package api/v1alpha1 *)

Module V1alpha1.

Definition KluctlDeploymentKind : string := "KluctlDeployment".
Definition KluctlDeploymentFinalizer : string := "finalizers.kluctl.io".
Definition MaxConditionMessageLength : Z := 20000.
Definition DisabledValue : string := "disabled".
Definition MergeValue : string := "merge".

Definition HealthyCondition : string := "Healthy".

(** Modelled from the spec: the declaration of
    CrossNamespaceSourceReference is not among the sources; these are the
    three fields the indexer reads from it. *)
Record CrossNamespaceSourceReference := mkCrossNamespaceSourceReference {
  Kind : string;
  Name : string;
  Namespace : string
}.

Record KluctlDeploymentSpec := mkKluctlDeploymentSpec {
  DependsOn : list Meta.NamespacedObjectReference;
  Interval : Go.Duration;
  RetryInterval : option Go.Duration;
  Path : string;
  SourceRef : CrossNamespaceSourceReference;
  Suspend : bool;
  Target : string;
  Timeout : option Go.Duration;
  ForceApply : bool;
  Prune : bool
}.

Record KluctlDeploymentStatus := mkKluctlDeploymentStatus {
  ReconcileRequestStatus : Meta.ReconcileRequestStatus;
  ObservedGeneration : Z;
  Conditions : list Metav1.Condition;
  LastDeployedRevision : string;
  LastAttemptedRevision : string
}.

Record KluctlDeployment := mkKluctlDeployment {
  TypeMeta : Metav1.TypeMeta;
  ObjectMeta : Metav1.ObjectMeta;
  Spec : KluctlDeploymentSpec;
  Status : KluctlDeploymentStatus
}.

Definition GetNamespace (k : KluctlDeployment) : string :=
  Metav1.Namespace (ObjectMeta k).
Definition GetName (k : KluctlDeployment) : string :=
  Metav1.Name (ObjectMeta k).

(** *** Timeouts and intervals *)

Definition GetTimeout (k : KluctlDeployment) : Go.Duration :=
  let duration := Go.sub64 (Interval (Spec k)) (30 * Go.Second) in
  let duration :=
    match Timeout (Spec k) with
    | Some t => t
    | None => duration
    end in
  if duration <? 30 * Go.Second then 30 * Go.Second else duration.

Definition GetRequeueAfter (k : KluctlDeployment) : Go.Duration :=
  Interval (Spec k).

Definition GetRetryInterval (k : KluctlDeployment) : Go.Duration :=
  match RetryInterval (Spec k) with
  | Some d => d
  | None => GetRequeueAfter k
  end.

Definition GetDependsOn (k : KluctlDeployment)
  : list Meta.NamespacedObjectReference :=
  DependsOn (Spec k).

Definition GetConditions (k : KluctlDeployment) : list Metav1.Condition :=
  Conditions (Status k).

(** *** Field updates ([k.Status.F = v] on a struct value) *)

Definition with_Conditions (st : KluctlDeploymentStatus)
    (cs : list Metav1.Condition) : KluctlDeploymentStatus :=
  {| ReconcileRequestStatus := ReconcileRequestStatus st;
     ObservedGeneration := ObservedGeneration st;
     Conditions := cs;
     LastDeployedRevision := LastDeployedRevision st;
     LastAttemptedRevision := LastAttemptedRevision st |}.

Definition with_ObservedGeneration (st : KluctlDeploymentStatus) (g : Z)
  : KluctlDeploymentStatus :=
  {| ReconcileRequestStatus := ReconcileRequestStatus st;
     ObservedGeneration := g;
     Conditions := Conditions st;
     LastDeployedRevision := LastDeployedRevision st;
     LastAttemptedRevision := LastAttemptedRevision st |}.

Definition with_LastAttemptedRevision (st : KluctlDeploymentStatus)
    (rev : string) : KluctlDeploymentStatus :=
  {| ReconcileRequestStatus := ReconcileRequestStatus st;
     ObservedGeneration := ObservedGeneration st;
     Conditions := Conditions st;
     LastDeployedRevision := LastDeployedRevision st;
     LastAttemptedRevision := rev |}.

Definition with_Status (k : KluctlDeployment) (st : KluctlDeploymentStatus)
  : KluctlDeployment :=
  {| TypeMeta := TypeMeta k; ObjectMeta := ObjectMeta k;
     Spec := Spec k; Status := st |}.

(** [SetConditions]: the pointer receiver becomes the returned object. *)
Definition SetConditions (k : KluctlDeployment)
    (conditions : list Metav1.Condition) : KluctlDeployment :=
  with_Status k (with_Conditions (Status k) conditions).

(** *** Message trimming *)

(** [None] is the run-time panic of the slice expression, which a
    negative [limit] would cause. *)
Definition trimString (str : string) (limit : Z) : option string :=
  if Go.len str <=? limit then Some str
  else s ← Go.slice_to str limit; Some (s +:+ "...").

End V1alpha1.

(** ** k8s.io/apimachinery/pkg/api/meta: the condition list helpers *)

Module Apimeta.

Import Metav1.

(** Modelled from the spec: [FindStatusCondition] belongs to
    k8s.io/apimachinery, whose sources are not among the files.  It is the
    lookup by type behind the upsert-by-type semantics of the spec: the
    position of the first condition of the given type, if any (the Go
    function returns a pointer to that element). *)
Definition FindStatusCondition (conditions : list Condition)
    (conditionType : string) : option (nat * Condition) :=
  list_find (λ c, Type_ c = conditionType) conditions.

(** Part of [SetStatusCondition] below.  What an existing condition
    becomes: status, reason, message and observed generation are those of
    the new condition; the transition time moves only when the status
    changes. *)
Definition update_existing (now : Go.Time) (newCondition existing : Condition)
  : Condition :=
  let changed := bool_decide (Status existing ≠ Status newCondition) in
  {| Type_ := Type_ existing;
     Status := if changed then Status newCondition else Status existing;
     ObservedGeneration := ObservedGeneration newCondition;
     LastTransitionTime :=
       if changed
       then (if negb (Go.IsZero (LastTransitionTime newCondition))
             then LastTransitionTime newCondition else now)
       else LastTransitionTime existing;
     Reason := Reason newCondition;
     Message := Message newCondition |}.

(** Part of [SetStatusCondition] below.  What is appended when no
    condition of the type exists: the new condition, its transition time
    set to the current time when it has none. *)
Definition stamp (now : Go.Time) (newCondition : Condition) : Condition :=
  {| Type_ := Type_ newCondition;
     Status := Status newCondition;
     ObservedGeneration := ObservedGeneration newCondition;
     LastTransitionTime :=
       if Go.IsZero (LastTransitionTime newCondition)
       then now else LastTransitionTime newCondition;
     Reason := Reason newCondition;
     Message := Message newCondition |}.

(** Modelled from the spec: [SetStatusCondition] belongs to
    k8s.io/apimachinery, whose sources are not among the files.  The spec
    gives it upsert-by-type semantics (replace the existing condition of
    the same type, or append); the field-by-field update and the handling
    of the transition time follow the library's contract.  [now] is the
    value of [time.Now()], read at most once per call.  The pointer
    argument is the address of [Status.Conditions] and is never nil, so
    the list is passed and the updated list returned. *)
Definition SetStatusCondition (now : Go.Time) (conditions : list Condition)
    (newCondition : Condition) : list Condition :=
  match FindStatusCondition conditions (Type_ newCondition) with
  | None => conditions ++ [stamp now newCondition]
  | Some (i, _) => alter (update_existing now newCondition) i conditions
  end.

End Apimeta.

(** ** Package api/v1alpha1: the condition helpers *)

Module V1alpha1Conditions.

Import V1alpha1.

(** A condition literal that names type, status, reason and message leaves
    the other fields at their zero values. *)
Definition newCondition (type status reason message : string)
  : Metav1.Condition :=
  {| Metav1.Type_ := type; Metav1.Status := status;
     Metav1.ObservedGeneration := 0; Metav1.LastTransitionTime := 0;
     Metav1.Reason := reason; Metav1.Message := message |}.

(** [k] is passed by value and the updated copy is returned; this is the
    object the function is read through.  (The copy's condition slice
    shares its backing array with the caller's object.) *)
Definition KluctlDeploymentProgressing (now : Go.Time) (k : KluctlDeployment)
    (message : string) : option KluctlDeployment :=
  msg ← trimString message MaxConditionMessageLength;
  let c := newCondition Meta.ReadyCondition Metav1.ConditionUnknown
                        Meta.ProgressingReason msg in
  Some (SetConditions k (Apimeta.SetStatusCondition now (GetConditions k) c)).

(** [k] is a pointer in the source: the object after the call is returned. *)
Definition SetKluctlDeploymentHealthiness (now : Go.Time)
    (k : KluctlDeployment) (status : Metav1.ConditionStatus)
    (reason message : string) : option KluctlDeployment :=
  msg ← trimString message MaxConditionMessageLength;
  let c := newCondition HealthyCondition status reason msg in
  Some (SetConditions k (Apimeta.SetStatusCondition now (GetConditions k) c)).

Definition SetKluctlDeploymentReadiness (now : Go.Time)
    (k : KluctlDeployment) (status : Metav1.ConditionStatus)
    (reason message revision : string) : option KluctlDeployment :=
  msg ← trimString message MaxConditionMessageLength;
  let c := newCondition Meta.ReadyCondition status reason msg in
  let k := SetConditions k
             (Apimeta.SetStatusCondition now (GetConditions k) c) in
  let k := with_Status k
             (with_ObservedGeneration (Status k)
                (Metav1.Generation (ObjectMeta k))) in
  let k := with_Status k (with_LastAttemptedRevision (Status k) revision) in
  Some k.

Definition KluctlDeploymentNotReady (now : Go.Time) (k : KluctlDeployment)
    (revision reason message : string) : option KluctlDeployment :=
  msg ← trimString message MaxConditionMessageLength;
  k ← SetKluctlDeploymentReadiness now k Metav1.ConditionFalse reason msg revision;
  let k :=
    if bool_decide (revision ≠ "")
    then with_Status k (with_LastAttemptedRevision (Status k) revision)
    else k in
  Some k.

End V1alpha1Conditions.

(** ** source-controller's artifact and controller-runtime's objects *)

Module Sourcev1.

(** Of the artifact the mapper reads the revision. *)
Record Artifact := mkArtifact {
  Revision : string
}.

End Sourcev1.

Module Runtime.

(** [types.NamespacedName] and its [String()] method. *)
Record NamespacedName := mkNamespacedName {
  Namespace : string;
  Name : string
}.

Definition NamespacedName_String (n : NamespacedName) : string :=
  Namespace n +:+ "/" +:+ Name n.

(** [reconcile.Request]. *)
Record Request := mkRequest {
  Request_NamespacedName : NamespacedName
}.

(** A [client.Object] by its dynamic type: a source kind, which has the
    [GetArtifact()] method (its artifact pointer may be nil), a
    KluctlDeployment, or an object of any other type.  [goType] is what
    the verb [%T] prints. *)
Inductive Object :=
| SourceObject (goType : string) (meta : Metav1.ObjectMeta)
               (artifact : option Sourcev1.Artifact)
| KluctlDeploymentObject (k : V1alpha1.KluctlDeployment)
| OtherObject (goType : string) (meta : Metav1.ObjectMeta).

Definition goTypeOf (obj : Object) : string :=
  match obj with
  | SourceObject t _ _ => t
  | KluctlDeploymentObject _ => "*v1alpha1.KluctlDeployment"
  | OtherObject t _ => t
  end.

Definition metaOf (obj : Object) : Metav1.ObjectMeta :=
  match obj with
  | SourceObject _ m _ => m
  | KluctlDeploymentObject k => V1alpha1.ObjectMeta k
  | OtherObject _ m => m
  end.

(** [client.ObjectKeyFromObject]. *)
Definition ObjectKeyFromObject (obj : Object) : NamespacedName :=
  {| Namespace := Metav1.Namespace (metaOf obj);
     Name := Metav1.Name (metaOf obj) |}.

(** The type assertion [obj.(interface{ GetArtifact() *Artifact })]:
    the artifact pointer of an object that has the method. *)
Definition asArtifactGetter (obj : Object)
  : option (option Sourcev1.Artifact) :=
  match obj with
  | SourceObject _ _ a => Some a
  | _ => None
  end.

End Runtime.

(** ** Package controllers: kluctl_indexers.go *)

Module Controllers.

Import Runtime.

(** How a call of a Go function ends. *)
Inductive Outcome (A : Type) :=
| Returns (a : A)
| Panics (msg : string).
Arguments Returns {A} a.
Arguments Panics {A} msg.

(** [client.ObjectKeyFromObject(obj).String()], the value the mapper
    selects on. *)
Definition keyOf (obj : Object) : string :=
  NamespacedName_String (ObjectKeyFromObject obj).

Section Reconciler.

(** The state behind the reconciler's client, and the client's [List]
    restricted to one field selector [indexKey = value]: an error or
    the matching KluctlDeployments. *)
Variable Cluster : Type.
Variable List :
  Cluster → string → string → string + list V1alpha1.KluctlDeployment.

(** Computations over the cluster state that may panic. *)
Definition M (A : Type) : Type := Cluster → Outcome A * Cluster.

#[local] Instance M_ret : MRet M := λ A a w, (Returns a, w).
#[local] Instance M_bind : MBind M := λ A B f m w,
  match m w with
  | (Returns a, w') => f a w'
  | (Panics msg, w') => (Panics msg, w')
  end.
Definition panic {A} (msg : string) : M A := λ w, (Panics msg, w).

(** [r.List(ctx, list, client.MatchingFields{indexKey: value})]: a read. *)
Definition list_matching (indexKey value : string)
  : M (string + list V1alpha1.KluctlDeployment) :=
  λ w, (Returns (List w indexKey value), w).

(** The body of the [for _, d := range list.Items] loop: one step on
    the accumulated [reqs]. *)
Definition request_step (revision : string) (reqs : list Request)
    (d : V1alpha1.KluctlDeployment) : list Request :=
  if bool_decide
       (revision = V1alpha1.LastAttemptedRevision (V1alpha1.Status d))
  then reqs
  else reqs ++ [ {| Request_NamespacedName :=
                      {| Namespace := V1alpha1.GetNamespace d;
                         Name := V1alpha1.GetName d |} |} ].

(** The mapper returned by [requestsForRevisionChangeOf(indexKey)].
    A nil slice is the empty list. *)
Definition requestsForRevisionChangeOf (indexKey : string) (obj : Object)
  : M (list Request) :=
  match asArtifactGetter obj with
  | None =>
      panic ("Expected an object conformed with GetArtifact() method, but got a "
             +:+ goTypeOf obj)
  | Some None => mret []
  | Some (Some artifact) =>
      res ← list_matching indexKey (keyOf obj);
      match res with
      | inl _ => mret []
      | inr items =>
          mret (fold_left (request_step (Sourcev1.Revision artifact))
                         items [])
      end
  end.

End Reconciler.

(** The indexer returned by [indexBy(kind)].  A nil slice is the empty
    list. *)
Definition indexBy (kind : string) (o : Object) : list string :=
  match o with
  | KluctlDeploymentObject k =>
      let ref := V1alpha1.SourceRef (V1alpha1.Spec k) in
      if bool_decide (V1alpha1.Kind ref = kind) then
        let namespace := V1alpha1.GetNamespace k in
        let namespace :=
          if bool_decide (V1alpha1.Namespace ref ≠ "")
          then V1alpha1.Namespace ref else namespace in
        [namespace +:+ "/" +:+ V1alpha1.Name ref]
      else []
  | _ => []
  end.

End Controllers.

(** ** What the specification says, in its own words *)

Module Specified.

Import V1alpha1.

(** "effective timeout = max(interval - 30s, timeout override, 30s floor)":
    the override takes part in the maximum when it is present. *)
Definition effective_timeout (k : KluctlDeployment) : Go.Duration :=
  let floored :=
    Z.max (Interval (Spec k) - 30 * Go.Second) (30 * Go.Second) in
  match Timeout (Spec k) with
  | Some t => Z.max floored t
  | None => floored
  end.

(** "the first 20000 characters followed by ..." for an oversized message,
    the message itself otherwise; lengths and positions count bytes, as
    Go's [len] and slicing do. *)
Definition truncated (message : string) : string :=
  if Go.len message <=? MaxConditionMessageLength
  then message
  else substring 0%nat (Z.to_nat MaxConditionMessageLength) message +:+ "...".

(** "upsert-by-type semantics (replace existing condition of the same
    type, or append)": [Upsert c before after] relates a condition list to
    the list in which [c] has taken the place of the first condition of
    its type, or has been appended when there is none. *)
Inductive Upsert (c : Metav1.Condition)
  : list Metav1.Condition → list Metav1.Condition → Prop :=
| Upsert_append cs :
    Forall (λ x, Metav1.Type_ x ≠ Metav1.Type_ c) cs →
    Upsert c cs (cs ++ [c])
| Upsert_replace l1 old l2 :
    Forall (λ x, Metav1.Type_ x ≠ Metav1.Type_ c) l1 →
    Metav1.Type_ old = Metav1.Type_ c →
    Upsert c (l1 ++ old :: l2) (l1 ++ c :: l2).

(** The conditions of a list whose type is not [type], in order. *)
Definition others (type : string) (cs : list Metav1.Condition)
  : list Metav1.Condition :=
  filter (λ x, Metav1.Type_ x ≠ type) cs.

(** A stored condition carries what the helper was given. *)
Definition carries (c : Metav1.Condition)
    (type status reason message : string) : Prop :=
  Metav1.Type_ c = type ∧ Metav1.Status c = status ∧
  Metav1.Reason c = reason ∧ Metav1.Message c = message.

(** The message of the condition of the given type, as
    [FindStatusCondition] finds it in the object a helper produced. *)
Definition stored_message (type : string) (r : option KluctlDeployment)
  : option string :=
  k ← r;
  ic ← Apimeta.FindStatusCondition (GetConditions k) type;
  Some (Metav1.Message ic.2).

(** The Ready condition and the Healthy condition a helper builds from
    its arguments. *)
Definition readyWith (status reason message : string) : Metav1.Condition :=
  V1alpha1Conditions.newCondition Meta.ReadyCondition status reason
    (truncated message).
Definition healthyWith (status reason message : string)
  : Metav1.Condition :=
  V1alpha1Conditions.newCondition HealthyCondition status reason
    (truncated message).

(** The object once the library call has set a condition on it. *)
Definition conditionSet (now : Go.Time) (k : KluctlDeployment)
    (c : Metav1.Condition) : KluctlDeployment :=
  SetConditions k (Apimeta.SetStatusCondition now (GetConditions k) c).

(** The messages the four condition helpers leave in the condition they
    set, for the same deployment and the same message. *)
Definition stored_messages (now : Go.Time) (k : KluctlDeployment)
    (status reason revision message : string) : list (option string) :=
  [ stored_message Meta.ReadyCondition
      (V1alpha1Conditions.KluctlDeploymentProgressing now k message);
    stored_message HealthyCondition
      (V1alpha1Conditions.SetKluctlDeploymentHealthiness
         now k status reason message);
    stored_message Meta.ReadyCondition
      (V1alpha1Conditions.SetKluctlDeploymentReadiness
         now k status reason message revision);
    stored_message Meta.ReadyCondition
      (V1alpha1Conditions.KluctlDeploymentNotReady
         now k revision reason message) ].

(** The request the mapper makes for a deployment. *)
Definition request_for (d : KluctlDeployment) : Runtime.Request :=
  {| Runtime.Request_NamespacedName :=
       {| Runtime.Namespace := GetNamespace d;
          Runtime.Name := GetName d |} |}.

(** A deployment is due when its last attempted revision is not the
    artifact's. *)
Definition due (revision : string) (d : KluctlDeployment) : Prop :=
  LastAttemptedRevision (Status d) ≠ revision.

#[global] Instance due_dec revision d : Decision (due revision d).
Proof. unfold due. apply _. Defined.

End Specified.

(** ** Sample objects *)

Module Samples.

Import V1alpha1.

Definition gitRef (namespace : string) : CrossNamespaceSourceReference :=
  {| Kind := "GitRepository"; Name := "podinfo"; Namespace := namespace |}.

Definition spec_of (ref : CrossNamespaceSourceReference)
    (interval : Go.Duration) (timeout : option Go.Duration)
  : KluctlDeploymentSpec :=
  {| DependsOn := []; Interval := interval; RetryInterval := None;
     Path := ""; SourceRef := ref; Suspend := false; Target := "prod";
     Timeout := timeout; ForceApply := false; Prune := false |}.

Definition healthy : Metav1.Condition :=
  {| Metav1.Type_ := HealthyCondition; Metav1.Status := Metav1.ConditionTrue;
     Metav1.ObservedGeneration := 2; Metav1.LastTransitionTime := 1700;
     Metav1.Reason := "ReconciliationSucceeded";
     Metav1.Message := "all objects healthy" |}.

Definition ready : Metav1.Condition :=
  {| Metav1.Type_ := Meta.ReadyCondition;
     Metav1.Status := Metav1.ConditionTrue;
     Metav1.ObservedGeneration := 2; Metav1.LastTransitionTime := 1800;
     Metav1.Reason := "ReconciliationSucceeded";
     Metav1.Message := "deployed main/1a2b" |}.

Definition status_of (cs : list Metav1.Condition) (attempted : string)
  : KluctlDeploymentStatus :=
  {| ReconcileRequestStatus := {| Meta.LastHandledReconcileAt := "" |};
     ObservedGeneration := 2; Conditions := cs;
     LastDeployedRevision := "main/1a2b";
     LastAttemptedRevision := attempted |}.

Definition deployment (name : string) (sp : KluctlDeploymentSpec)
    (st : KluctlDeploymentStatus) : KluctlDeployment :=
  {| TypeMeta := {| Metav1.Kind := KluctlDeploymentKind;
                    Metav1.APIVersion := "flux.kluctl.io/v1alpha1" |};
     ObjectMeta := {| Metav1.Name := name; Metav1.Namespace := "apps";
                      Metav1.Generation := 3 |};
     Spec := sp; Status := st |}.

(** Interval 10m with a 1m timeout override. *)
Definition overridden : KluctlDeployment :=
  deployment "web" (spec_of (gitRef "") (10 * Go.Minute) (Some Go.Minute))
             (status_of [healthy; ready] "main/1a2b").

(** The same deployment in other states. *)
Definition fresh : KluctlDeployment :=
  deployment "web" (spec_of (gitRef "") (10 * Go.Minute) None)
             (status_of [] "").

Definition only_healthy : KluctlDeployment :=
  deployment "web" (spec_of (gitRef "") (10 * Go.Minute) None)
             (status_of [healthy] "main/1a2b").

Definition stale : KluctlDeployment :=
  deployment "api" (spec_of (gitRef "flux-system") (5 * Go.Minute) None)
             (status_of [ready] "main/0f0f").

(** A message of 20001 bytes. *)
Definition oversized : string :=
  string_of_list_ascii (repeat "x"%char (Z.to_nat 20001)).

Definition repository (artifact : option Sourcev1.Artifact)
  : Runtime.Object :=
  Runtime.SourceObject "*v1beta2.GitRepository"
    {| Metav1.Name := "podinfo"; Metav1.Namespace := "apps";
       Metav1.Generation := 1 |}
    artifact.

Definition configMap : Runtime.Object :=
  Runtime.OtherObject "*v1.ConfigMap"
    {| Metav1.Name := "settings"; Metav1.Namespace := "apps";
       Metav1.Generation := 1 |}.

(** A cluster is the list of its deployments, or unreachable; listing
    ignores the selector here. *)
Definition cluster : Type := option (list KluctlDeployment).

Definition listAll (w : cluster) (indexKey value : string)
  : string + list KluctlDeployment :=
  match w with
  | Some ds => inr ds
  | None => inl "connection refused"
  end.

End Samples.

(** ** Views of the objects, for stating what the helpers keep *)

Module Observations.

Import V1alpha1.

(** What the four condition helpers return for the same deployment. *)
Definition helper_results (now : Go.Time) (k : KluctlDeployment)
    (status reason revision message : string)
  : list (option KluctlDeployment) :=
  [ V1alpha1Conditions.KluctlDeploymentProgressing now k message;
    V1alpha1Conditions.SetKluctlDeploymentHealthiness
      now k status reason message;
    V1alpha1Conditions.SetKluctlDeploymentReadiness
      now k status reason message revision;
    V1alpha1Conditions.KluctlDeploymentNotReady
      now k revision reason message ].

(** The same helper applied a second time, at a later clock reading, to
    what it returned the first time. *)
Definition helper_results_twice (now later : Go.Time) (k : KluctlDeployment)
    (status reason revision message : string)
  : list (option KluctlDeployment) :=
  [ V1alpha1Conditions.KluctlDeploymentProgressing now k message
      ≫= (λ k1, V1alpha1Conditions.KluctlDeploymentProgressing
                   later k1 message);
    V1alpha1Conditions.SetKluctlDeploymentHealthiness
      now k status reason message
      ≫= (λ k1, V1alpha1Conditions.SetKluctlDeploymentHealthiness
                   later k1 status reason message);
    V1alpha1Conditions.SetKluctlDeploymentReadiness
      now k status reason message revision
      ≫= (λ k1, V1alpha1Conditions.SetKluctlDeploymentReadiness
                   later k1 status reason message revision);
    V1alpha1Conditions.KluctlDeploymentNotReady
      now k revision reason message
      ≫= (λ k1, V1alpha1Conditions.KluctlDeploymentNotReady
                   later k1 revision reason message) ].

(** The two assignments that record an attempt: the observed generation
    becomes the object's generation, the last attempted revision the
    revision given. *)
Definition record_attempt (k : KluctlDeployment) (revision : string)
  : KluctlDeployment :=
  let k := with_Status k
             (with_ObservedGeneration (Status k)
                (Metav1.Generation (ObjectMeta k))) in
  with_Status k (with_LastAttemptedRevision (Status k) revision).

(** The types of the conditions of an object, in order. *)
Definition condition_types (k : KluctlDeployment) : list string :=
  Metav1.Type_ <$> GetConditions k.

(** Everything of an object but its condition list, its observed
    generation and its last attempted revision. *)
Definition unattempted (k : KluctlDeployment)
  : Metav1.TypeMeta * Metav1.ObjectMeta * KluctlDeploymentSpec
    * Meta.ReconcileRequestStatus * string :=
  (TypeMeta k, ObjectMeta k, Spec k,
   ReconcileRequestStatus (Status k), LastDeployedRevision (Status k)).

(** Whether the separator of index keys occurs in a string. *)
Fixpoint has_slash (s : string) : bool :=
  match s with
  | EmptyString => false
  | String a s' => Ascii.eqb a "/" || has_slash s'
  end.

(** The namespace the indexer puts into the key of a deployment: that of
    the source reference when it is not empty, the deployment's own
    otherwise. *)
Definition key_namespace (k : KluctlDeployment) : string :=
  let ref := SourceRef (Spec k) in
  if bool_decide (Namespace ref ≠ "") then Namespace ref
  else GetNamespace k.

(** A deployment refers to an object as its source of the given kind. *)
Definition refers_to (kind : string) (obj : Runtime.Object)
    (k : KluctlDeployment) : Prop :=
  Kind (SourceRef (Spec k)) = kind ∧
  key_namespace k = Metav1.Namespace (Runtime.metaOf obj) ∧
  Name (SourceRef (Spec k)) = Metav1.Name (Runtime.metaOf obj).

#[global] Instance refers_to_dec kind obj k : Decision (refers_to kind obj k).
Proof. unfold refers_to. apply _. Defined.

(** The field index the controller registers with [indexBy(kind)], as the
    client's cache answers a [List] with a field selector from it: the
    deployments for which the indexer yields the selected value. *)
Definition indexed (kind value : string) (all : list KluctlDeployment)
  : list KluctlDeployment :=
  filter (λ d, value ∈ Controllers.indexBy kind
                          (Runtime.KluctlDeploymentObject d)) all.

(** A cluster whose client answers [List] from the field index of a kind. *)
Definition listFromIndex (kind : string) (w : Samples.cluster)
    (indexKey value : string) : string + list KluctlDeployment :=
  match w with
  | Some ds => inr (indexed kind value ds)
  | None => inl "connection refused"
  end.

End Observations.

(** * Properties *)

Import V1alpha1 V1alpha1Conditions.

(** ** Timeouts and retry intervals *)

Section Durations.

Implicit Types k : KluctlDeployment.

Lemma wrap64_id z : Go.in_int64 z → Go.wrap64 z = z.
Proof.
  unfold Go.in_int64, Go.MinInt64, Go.MaxInt64, Go.wrap64. intros Hz.
  rewrite Z.mod_small; lia.
Qed.

Lemma wrap64_range z : Go.in_int64 (Go.wrap64 z).
Proof.
  unfold Go.in_int64, Go.MinInt64, Go.MaxInt64, Go.wrap64.
  pose proof (Z.mod_pos_bound (z + 2 ^ 63) (2 ^ 64)). lia.
Qed.

(** Without an override, and for an interval from which 30s can be taken
    within int64, the timeout is the interval less 30s, floored at 30s. *)
Lemma GetTimeout_default k :
  Timeout (Spec k) = None →
  Go.MinInt64 + 30 * Go.Second <= Interval (Spec k) <= Go.MaxInt64 →
  GetTimeout k = Z.max (Interval (Spec k) - 30 * Go.Second) (30 * Go.Second).
Proof.
  intros Hnone Hrange. unfold GetTimeout, Go.sub64. rewrite Hnone.
  rewrite wrap64_id.
  - destruct (Z.ltb_spec (Interval (Spec k) - 30 * Go.Second) (30 * Go.Second)); lia.
  - unfold Go.in_int64, Go.Second in *. unfold Go.MinInt64, Go.MaxInt64 in *. lia.
Qed.

(** C1, as the code has it: GetTimeout returns the Timeout override floored
    at 30s when spec.timeout is present, and otherwise the interval less
    30s (an int64 subtraction) floored at 30s; the override replaces the
    interval-derived value instead of competing with it. *)
Theorem GetTimeout_override_or_interval k :
  GetTimeout k =
    match Timeout (Spec k) with
    | Some t => Z.max t (30 * Go.Second)
    | None =>
        Z.max (Go.sub64 (Interval (Spec k)) (30 * Go.Second))
              (30 * Go.Second)
    end.
Proof.
  unfold GetTimeout.
  destruct (Timeout (Spec k)) as [t|]; cbv zeta;
    match goal with |- context [?a <? ?b] => destruct (Z.ltb_spec a b) end;
    lia.
Qed.

(** C1, refuted as stated: with a 10m interval and a 1m override the
    timeout is 1m, while the maximum of the three is 9m30s. *)
Lemma GetTimeout_is_not_the_maximum :
  GetTimeout Samples.overridden = Go.Minute ∧
  Specified.effective_timeout Samples.overridden = 570 * Go.Second ∧
  GetTimeout Samples.overridden
    ≠ Specified.effective_timeout Samples.overridden.
Proof. repeat split; vm_compute; congruence. Qed.

(** C6: GetTimeout never returns less than 30 seconds, whatever the
    interval and whether or not an override is present. *)
Theorem GetTimeout_at_least_30s k : 30 * Go.Second <= GetTimeout k.
Proof.
  unfold GetTimeout. cbv zeta.
  match goal with |- context [?a <? ?b] => destruct (Z.ltb_spec a b) end; lia.
Qed.

(** C3: GetRetryInterval returns spec.retryInterval when it is set, and
    otherwise what GetRequeueAfter returns, which is spec.interval. *)
Theorem GetRetryInterval_override_or_interval k :
  GetRetryInterval k =
    match RetryInterval (Spec k) with
    | Some d => d
    | None => GetRequeueAfter k
    end
  ∧ GetRequeueAfter k = Interval (Spec k).
Proof. split; reflexivity. Qed.

End Durations.

(** ** Strings and message trimming *)

Section Trimming.

Implicit Types s t message : string.

Lemma length_append s t :
  String.length (s +:+ t) = (String.length s + String.length t)%nat.
Proof. induction s as [|a s IH]; simpl; [done | by rewrite IH]. Qed.

Lemma length_substring_prefix s (n : nat) :
  (n ≤ String.length s)%nat → String.length (substring 0 n s) = n.
Proof.
  revert n. induction s as [|a s IH]; intros [|n] Hn; simpl in *;
    try done; try lia.
  rewrite IH; [done | lia].
Qed.

Lemma substring_prefix_append s t :
  substring 0 (String.length s) (s +:+ t) = s.
Proof.
  induction s as [|a s IH]; simpl.
  - by destruct t.
  - by rewrite IH.
Qed.

Lemma len_nonneg s : 0 <= Go.len s.
Proof. unfold Go.len. lia. Qed.

Lemma slice_to_in_range s hi :
  0 <= hi <= Go.len s →
  Go.slice_to s hi = Some (substring 0 (Z.to_nat hi) s).
Proof.
  intros [H0 H1]. unfold Go.slice_to.
  destruct (Z.leb_spec 0 hi); [|lia].
  destruct (Z.leb_spec hi (Go.len s)); [done | lia].
Qed.

Lemma MaxConditionMessageLength_nonneg : 0 <= MaxConditionMessageLength.
Proof. unfold MaxConditionMessageLength. lia. Qed.

(** Trimming to the maximal message length never panics, and gives the
    truncation. *)
Lemma trimString_truncated message :
  trimString message MaxConditionMessageLength
  = Some (Specified.truncated message).
Proof.
  unfold trimString, Specified.truncated.
  destruct (Z.leb_spec (Go.len message) MaxConditionMessageLength) as [|Hlt];
    [done|].
  rewrite slice_to_in_range; [done|].
  pose proof MaxConditionMessageLength_nonneg. lia.
Qed.

(** A truncated message, one of 20003 bytes when it was cut, truncates to
    itself. *)
Lemma truncated_idempotent message :
  Specified.truncated (Specified.truncated message)
  = Specified.truncated message.
Proof.
  pose proof MaxConditionMessageLength_nonneg as Hmax.
  unfold Specified.truncated at 2 3.
  destruct (Z.leb_spec (Go.len message) MaxConditionMessageLength)
    as [Hle|Hlt].
  - unfold Specified.truncated.
    by destruct (Z.leb_spec (Go.len message) MaxConditionMessageLength);
      [|lia].
  - set (n := Z.to_nat MaxConditionMessageLength).
    assert (Hn : String.length (substring 0 n message) = n).
    { apply length_substring_prefix. unfold Go.len in Hlt. lia. }
    unfold Specified.truncated.
    destruct (Z.leb_spec (Go.len (substring 0 n message +:+ "..."))
                         MaxConditionMessageLength) as [Hle|_].
    + unfold Go.len in Hle. rewrite length_append, Hn in Hle.
      simpl String.length in Hle. lia.
    + fold n. rewrite <- Hn at 1. by rewrite substring_prefix_append.
Qed.

Lemma truncated_short message :
  Go.len message <= 20000 → Specified.truncated message = message.
Proof.
  intros Hle. unfold Specified.truncated.
  by destruct (Z.leb_spec (Go.len message) MaxConditionMessageLength);
    [|unfold MaxConditionMessageLength in *; lia].
Qed.

Lemma truncated_long message :
  20000 < Go.len message →
  Specified.truncated message
  = substring 0 (Z.to_nat 20000) message +:+ "...".
Proof.
  intros Hlt. unfold Specified.truncated.
  by destruct (Z.leb_spec (Go.len message) MaxConditionMessageLength);
    [unfold MaxConditionMessageLength in *; lia|].
Qed.

End Trimming.

(** ** The condition list *)

Section Upserting.

Import Specified.

Implicit Types c old : Metav1.Condition.
Implicit Types cs : list Metav1.Condition.

(** In an upserted list the lookup by type finds the upserted condition. *)
Lemma Upsert_find c cs cs' :
  Upsert c cs cs' →
  ∃ i, Apimeta.FindStatusCondition cs' (Metav1.Type_ c) = Some (i, c).
Proof.
  unfold Apimeta.FindStatusCondition.
  intros [cs0 Hno | l1 old l2 Hno _];
    [exists (length cs0) | exists (length l1)].
  all: apply list_find_Some; split_and!;
    [ by rewrite list_lookup_middle | done | ].
  all: intros j y Hj Hlt; rewrite lookup_app_l in Hj by done.
  all: by eapply Forall_lookup_1 in Hno.
Qed.

(** Upserting neither adds, drops nor reorders conditions of other types. *)
Lemma Upsert_others c cs cs' :
  Upsert c cs cs' →
  others (Metav1.Type_ c) cs' = others (Metav1.Type_ c) cs.
Proof.
  unfold others. intros [cs0 Hno | l1 old l2 Hno Hty].
  - rewrite filter_app, filter_cons_False by (intros H; by apply H).
    by rewrite filter_nil, app_nil_r.
  - rewrite !filter_app. f_equal.
    rewrite !filter_cons_False; [done | | ]; intros H; by apply H.
Qed.

Lemma Upsert_length c cs cs' :
  Upsert c cs cs' → (length cs ≤ length cs')%nat.
Proof.
  intros [cs0 _ | l1 old l2 _ _]; rewrite !length_app; simpl; lia.
Qed.

Lemma others_elem_of type c cs :
  c ∈ others type cs ↔ c ∈ cs ∧ Metav1.Type_ c ≠ type.
Proof. unfold others. rewrite list_elem_of_filter. tauto. Qed.

(** [SetStatusCondition] is an upsert of a condition that carries the
    type, status, reason, message and observed generation it was given. *)
Lemma SetStatusCondition_upsert now cs c :
  ∃ c', Upsert c' cs (Apimeta.SetStatusCondition now cs c) ∧
        carries c' (Metav1.Type_ c) (Metav1.Status c) (Metav1.Reason c)
                (Metav1.Message c) ∧
        Metav1.ObservedGeneration c' = Metav1.ObservedGeneration c.
Proof.
  unfold Apimeta.SetStatusCondition, Apimeta.FindStatusCondition.
  destruct (list_find _ cs) as [[i old]|] eqn:Hfind.
  - apply list_find_Some in Hfind as (Hi & Hty & Hbefore).
    apply list_elem_of_split_length in Hi as (l1 & l2 & -> & ->).
    exists (Apimeta.update_existing now c old).
    rewrite alter_app_r_alt, Nat.sub_diag by done. simpl.
    split_and!; try done.
    + apply Upsert_replace; [|done].
      apply Forall_lookup_2. intros j y Hj. simpl. rewrite Hty.
      apply (Hbefore j y).
      * by rewrite lookup_app_l by (by eapply lookup_lt_Some).
      * by eapply lookup_lt_Some.
    + unfold carries, Apimeta.update_existing; simpl. split_and!; try done.
      by case_bool_decide.
  - apply list_find_None in Hfind.
    exists (Apimeta.stamp now c). split_and!; try done.
    by apply Upsert_append.
Qed.

End Upserting.

(** ** The condition helpers *)

Section Helpers.

Import Specified.

Implicit Types k : KluctlDeployment.
Implicit Types status reason message revision : string.

Lemma KluctlDeploymentProgressing_returns now k message :
  KluctlDeploymentProgressing now k message
  = Some (conditionSet now k
            (readyWith Metav1.ConditionUnknown Meta.ProgressingReason
                       message)).
Proof.
  unfold KluctlDeploymentProgressing.
  by rewrite trimString_truncated.
Qed.

Lemma SetKluctlDeploymentHealthiness_returns now k status reason message :
  SetKluctlDeploymentHealthiness now k status reason message
  = Some (conditionSet now k (healthyWith status reason message)).
Proof.
  unfold SetKluctlDeploymentHealthiness.
  by rewrite trimString_truncated.
Qed.

Lemma SetKluctlDeploymentReadiness_returns
    now k status reason message revision :
  SetKluctlDeploymentReadiness now k status reason message revision
  = Some (let k1 := conditionSet now k (readyWith status reason message) in
          let k2 := with_Status k1
                      (with_ObservedGeneration (Status k1)
                         (Metav1.Generation (ObjectMeta k1))) in
          with_Status k2 (with_LastAttemptedRevision (Status k2) revision)).
Proof.
  unfold SetKluctlDeploymentReadiness.
  by rewrite trimString_truncated.
Qed.

(** The message reaches [SetKluctlDeploymentReadiness] trimmed and is
    trimmed there again, to the same string. *)
Lemma KluctlDeploymentNotReady_returns now k revision reason message :
  ∃ k', KluctlDeploymentNotReady now k revision reason message = Some k' ∧
        SetKluctlDeploymentReadiness now k Metav1.ConditionFalse reason
          message revision = Some k'.
Proof.
  unfold KluctlDeploymentNotReady.
  rewrite trimString_truncated. simpl.
  rewrite !SetKluctlDeploymentReadiness_returns. unfold readyWith.
  rewrite truncated_idempotent. simpl. eexists. split; [|done].
  by case_bool_decide.
Qed.

Lemma GetConditions_conditionSet now k (c : Metav1.Condition) :
  GetConditions (conditionSet now k c)
  = Apimeta.SetStatusCondition now (GetConditions k) c.
Proof. reflexivity. Qed.

(** After the library call the lookup by type finds the message given. *)
Lemma stored_message_conditionSet now k k' (c : Metav1.Condition) :
  GetConditions k' = GetConditions (conditionSet now k c) →
  stored_message (Metav1.Type_ c) (Some k') = Some (Metav1.Message c).
Proof.
  intros Hcs.
  destruct (SetStatusCondition_upsert now (GetConditions k) c)
    as (c' & Hup & (Hty & _ & _ & Hmsg) & _).
  apply Upsert_find in Hup as [i Hfind]. rewrite Hty in Hfind.
  unfold stored_message. cbn [mbind option_bind].
  rewrite Hcs, GetConditions_conditionSet, Hfind. simpl.
  by rewrite Hmsg.
Qed.

(** C4: each of the four condition helpers stores the message trimmed: a
    message of at most 20000 bytes is stored as it is, a longer one as its
    first 20000 bytes followed by three dots. *)
Theorem condition_helpers_trim_message
    now k status reason revision message :
  (Go.len message <= 20000 →
   Forall (λ m, m = Some message)
          (stored_messages now k status reason revision message)) ∧
  (20000 < Go.len message →
   Forall (λ m, m = Some (substring 0 (Z.to_nat 20000) message +:+ "..."))
          (stored_messages now k status reason revision message)).
Proof.
  assert (Hall : stored_messages now k status reason revision message
                 = replicate 4 (Some (truncated message))).
  { unfold stored_messages.
    destruct (KluctlDeploymentNotReady_returns now k revision reason message)
      as (k' & -> & Hready).
    rewrite SetKluctlDeploymentReadiness_returns in Hready.
    injection Hready as <-.
    rewrite KluctlDeploymentProgressing_returns,
      SetKluctlDeploymentHealthiness_returns,
      SetKluctlDeploymentReadiness_returns.
    simpl replicate. repeat f_equal.
    - by apply (stored_message_conditionSet now k _
                  (readyWith Metav1.ConditionUnknown Meta.ProgressingReason
                             message)).
    - by apply (stored_message_conditionSet now k _
                  (healthyWith status reason message)).
    - by apply (stored_message_conditionSet now k _
                  (readyWith status reason message)).
    - by apply (stored_message_conditionSet now k _
                  (readyWith Metav1.ConditionFalse reason message)). }
  rewrite Hall. split; intros Hlen.
  - rewrite truncated_short by done. by apply Forall_replicate.
  - rewrite truncated_long by done. by apply Forall_replicate.
Qed.

Lemma condition_helpers_trim_message_witness :
  Forall (λ m, m = Some "reconciling")
         (stored_messages 2000 Samples.overridden "True" "Succeeded"
                          "main/3c4d" "reconciling") ∧
  Forall (λ m, m = Some (substring 0 (Z.to_nat 20000) Samples.oversized
                         +:+ "..."))
         (stored_messages 2000 Samples.overridden "True" "Succeeded"
                          "main/3c4d" Samples.oversized).
Proof.
  split.
  - apply (proj1 (condition_helpers_trim_message
                    2000 Samples.overridden "True" "Succeeded"
                    "main/3c4d" "reconciling")).
    vm_compute. discriminate.
  - apply (proj2 (condition_helpers_trim_message
                    2000 Samples.overridden "True" "Succeeded"
                    "main/3c4d" Samples.oversized)).
    vm_compute. reflexivity.
Defined.

(** The two cases on sample objects: the Healthy condition of a deployment
    that has one is replaced where it stands, its transition time kept as
    the status does not change; a deployment without conditions gets the
    Ready condition appended, stamped with the current time. *)
Example healthiness_replaces_in_place :
  GetConditions
    <$> SetKluctlDeploymentHealthiness 2000 Samples.overridden
          Metav1.ConditionTrue "Succeeded" "3 objects healthy"
  = Some [ {| Metav1.Type_ := "Healthy"; Metav1.Status := "True";
              Metav1.ObservedGeneration := 0;
              Metav1.LastTransitionTime := 1700;
              Metav1.Reason := "Succeeded";
              Metav1.Message := "3 objects healthy" |};
           Samples.ready ].
Proof. reflexivity. Qed.

Example progressing_appends :
  GetConditions
    <$> KluctlDeploymentProgressing 2000 Samples.fresh "reconciling"
  = Some [ {| Metav1.Type_ := "Ready"; Metav1.Status := "Unknown";
              Metav1.ObservedGeneration := 0;
              Metav1.LastTransitionTime := 2000;
              Metav1.Reason := "Progressing";
              Metav1.Message := "reconciling" |} ].
Proof. reflexivity. Qed.

(** A failed attempt without a revision clears the last attempted
    revision: the readiness helper has stored the empty string before the
    guard on the revision is reached. *)
Example not_ready_without_revision :
  (λ k, LastAttemptedRevision (Status k))
    <$> KluctlDeploymentNotReady 2000 Samples.overridden ""
          "ArtifactFailed" "no artifact"
  = Some "".
Proof. reflexivity. Qed.

(** What every helper does to the condition list: an upsert of a
    condition that carries the helper's arguments, the message trimmed. *)
Lemma conditionSet_upsert now k (c : Metav1.Condition) :
  ∃ c', Upsert c' (GetConditions k) (GetConditions (conditionSet now k c)) ∧
        carries c' (Metav1.Type_ c) (Metav1.Status c) (Metav1.Reason c)
                (Metav1.Message c) ∧
        others (Metav1.Type_ c) (GetConditions (conditionSet now k c))
        = others (Metav1.Type_ c) (GetConditions k).
Proof.
  rewrite GetConditions_conditionSet.
  destruct (SetStatusCondition_upsert now (GetConditions k) c)
    as (c' & Hup & Hcarries & _).
  exists c'. split_and!; try done.
  destruct Hcarries as (<- & _). by apply Upsert_others.
Qed.

(** C5: setting a condition is an upsert by type.  The condition lists
    before and after SetKluctlDeploymentHealthiness, and before and after
    KluctlDeploymentProgressing, are related by [Upsert]: the first
    condition of the type is replaced in place, or the condition is
    appended when the list has none of the type; the stored condition
    carries the type, status, reason and trimmed message given; the
    conditions of other types are the same, in the same order. *)
Theorem set_condition_upserts_by_type now k status reason message :
  (∃ k' c',
      SetKluctlDeploymentHealthiness now k status reason message = Some k' ∧
      Upsert c' (GetConditions k) (GetConditions k') ∧
      carries c' HealthyCondition status reason (truncated message) ∧
      others HealthyCondition (GetConditions k')
      = others HealthyCondition (GetConditions k)) ∧
  (∃ k' c',
      KluctlDeploymentProgressing now k message = Some k' ∧
      Upsert c' (GetConditions k) (GetConditions k') ∧
      carries c' Meta.ReadyCondition Metav1.ConditionUnknown
              Meta.ProgressingReason (truncated message) ∧
      others Meta.ReadyCondition (GetConditions k')
      = others Meta.ReadyCondition (GetConditions k)).
Proof.
  split.
  - destruct (conditionSet_upsert now k (healthyWith status reason message))
      as (c' & Hup & Hcarries & Hothers).
    exists (conditionSet now k (healthyWith status reason message)), c'.
    by rewrite SetKluctlDeploymentHealthiness_returns.
  - destruct (conditionSet_upsert now k
                (readyWith Metav1.ConditionUnknown Meta.ProgressingReason
                           message))
      as (c' & Hup & Hcarries & Hothers).
    eexists _, c'.
    by rewrite KluctlDeploymentProgressing_returns.
Qed.

(** C7: SetKluctlDeploymentReadiness upserts the Ready condition with the
    status, reason and trimmed message given, sets status.observedGeneration
    to the object's generation and status.lastAttemptedRevision to the
    revision given, whatever the revision (the empty string included). *)
Theorem SetKluctlDeploymentReadiness_sets_status
    now k status reason message revision :
  ∃ k' c',
    SetKluctlDeploymentReadiness now k status reason message revision
    = Some k' ∧
    Upsert c' (GetConditions k) (GetConditions k') ∧
    carries c' Meta.ReadyCondition status reason (truncated message) ∧
    ObservedGeneration (Status k') = Metav1.Generation (ObjectMeta k) ∧
    LastAttemptedRevision (Status k') = revision ∧
    ObjectMeta k' = ObjectMeta k ∧ Spec k' = Spec k.
Proof.
  destruct (conditionSet_upsert now k (readyWith status reason message))
    as (c' & Hup & Hcarries & _).
  eexists _, c'. rewrite SetKluctlDeploymentReadiness_returns.
  by split_and!.
Qed.

(** C8: KluctlDeploymentProgressing upserts the Ready condition and keeps
    the rest: every condition of another type is still in the list (the
    conditions of other types are the same, in the same order, and the
    list does not get shorter), and spec, status.observedGeneration and
    status.lastAttemptedRevision are unchanged. *)
Theorem KluctlDeploymentProgressing_keeps_the_rest now k message :
  ∃ k',
    KluctlDeploymentProgressing now k message = Some k' ∧
    (∃ c', Upsert c' (GetConditions k) (GetConditions k') ∧
           Metav1.Type_ c' = Meta.ReadyCondition) ∧
    (∀ c, c ∈ GetConditions k → Metav1.Type_ c ≠ Meta.ReadyCondition →
          c ∈ GetConditions k') ∧
    others Meta.ReadyCondition (GetConditions k')
    = others Meta.ReadyCondition (GetConditions k) ∧
    (length (GetConditions k) ≤ length (GetConditions k'))%nat ∧
    Spec k' = Spec k ∧
    ObservedGeneration (Status k') = ObservedGeneration (Status k) ∧
    LastAttemptedRevision (Status k') = LastAttemptedRevision (Status k).
Proof.
  destruct (conditionSet_upsert now k
              (readyWith Metav1.ConditionUnknown Meta.ProgressingReason
                         message))
    as (c' & Hup & (Hty & _) & Hothers).
  eexists. rewrite KluctlDeploymentProgressing_returns.
  split_and!; try done.
  - by exists c'.
  - intros c Hin Hne.
    assert (Hc : c ∈ others Meta.ReadyCondition (GetConditions k))
      by by apply others_elem_of.
    change Meta.ReadyCondition with
      (Metav1.Type_ (readyWith Metav1.ConditionUnknown
                               Meta.ProgressingReason message)) in Hc.
    rewrite <- Hothers in Hc. by apply others_elem_of in Hc as [? _].
  - by eapply Upsert_length.
Qed.

Lemma KluctlDeploymentProgressing_keeps_the_rest_witness :
  ∃ k', KluctlDeploymentProgressing 2000 Samples.overridden "reconciling"
        = Some k' ∧
        Samples.healthy ∈ GetConditions k' ∧
        length (GetConditions k') = 2%nat.
Proof.
  destruct (KluctlDeploymentProgressing_keeps_the_rest
              2000 Samples.overridden "reconciling")
    as (k' & Hk' & _ & Hin & _).
  exists k'. split_and!; [done| |].
  - apply Hin; [apply list_elem_of_here | vm_compute; discriminate].
  - vm_compute in Hk'. by injection Hk' as <-.
Defined.

End Helpers.

(** ** The indexer and the artifact-event mapper *)

Section Indexers.

Import Runtime Controllers Specified.

Context {Cluster : Type}.
Context (List : Cluster → string → string → string + list KluctlDeployment).

Implicit Types w : Cluster.
Implicit Types obj : Object.
Implicit Types items : list KluctlDeployment.

(** The loop appends, in order, the requests of the due deployments. *)
Lemma fold_request_step revision items (reqs : list Request) :
  fold_left (request_step revision) items reqs
  = (reqs ++ (request_for <$> filter (due revision) items))%list.
Proof.
  revert reqs. induction items as [|d items IH]; intros reqs; simpl.
  - by rewrite app_nil_r.
  - rewrite IH. unfold request_step, due at 2.
    case_bool_decide as Heq.
    + by rewrite filter_cons_False by (intros Hd; by apply Hd).
    + rewrite filter_cons_True by (intros Hd; by apply Heq).
      by rewrite fmap_cons, <- app_assoc.
Qed.

(** C2: for a source object with an artifact, and the deployments the
    client lists for it, the mapper returns the requests of exactly the
    deployments whose status.lastAttemptedRevision differs from the
    artifact's revision, one for each, in the order of the list; a
    deployment whose last attempted revision is the artifact's gets
    none. *)
Theorem requests_exactly_for_due_deployments
    w indexKey goType meta artifact items :
  List w indexKey (keyOf (SourceObject goType meta (Some artifact)))
  = inr items →
  requestsForRevisionChangeOf Cluster List indexKey
    (SourceObject goType meta (Some artifact)) w
  = (Returns (request_for
                <$> filter (due (Sourcev1.Revision artifact)) items), w).
Proof.
  intros Hlist.
  unfold requestsForRevisionChangeOf, list_matching; simpl.
  unfold mbind, M_bind, mret, M_ret. rewrite Hlist.
  by rewrite fold_request_step.
Qed.

(** C10: the mapper returns no request, and leaves the cluster state as it
    was, when the source object has no artifact and when listing the
    deployments fails; it panics exactly for an object without a
    GetArtifact() method; the cluster state is never changed. *)
Theorem mapper_degenerate_cases w indexKey :
  (∀ goType meta,
      requestsForRevisionChangeOf Cluster List indexKey
        (SourceObject goType meta None) w = (Returns [], w)) ∧
  (∀ goType meta artifact err,
      List w indexKey (keyOf (SourceObject goType meta (Some artifact)))
      = inl err →
      requestsForRevisionChangeOf Cluster List indexKey
        (SourceObject goType meta (Some artifact)) w = (Returns [], w)) ∧
  (∀ obj,
      (∃ msg, (requestsForRevisionChangeOf Cluster List indexKey obj w).1
              = Panics msg)
      ↔ asArtifactGetter obj = None) ∧
  (∀ obj, (requestsForRevisionChangeOf Cluster List indexKey obj w).2 = w).
Proof.
  split_and!.
  - done.
  - intros goType meta artifact err Hlist.
    unfold requestsForRevisionChangeOf, list_matching; simpl.
    unfold mbind, M_bind, mret, M_ret. by rewrite Hlist.
  - intros obj. unfold requestsForRevisionChangeOf, list_matching.
    destruct obj as [goType meta [artifact|] | k | goType meta]; simpl.
    + unfold mbind, M_bind, mret, M_ret.
      destruct (List w indexKey _); simpl; split; try done;
        by intros [msg Hmsg].
    + split; [by intros [msg Hmsg] | done].
    + split; [done | by eexists].
    + split; [done | by eexists].
  - intros obj. unfold requestsForRevisionChangeOf, list_matching.
    destruct obj as [goType meta [artifact|] | k | goType meta]; simpl;
      try done.
    unfold mbind, M_bind, mret, M_ret.
    by destruct (List w indexKey _).
Qed.

End Indexers.

Lemma requests_exactly_for_due_deployments_witness :
  Controllers.requestsForRevisionChangeOf Samples.cluster Samples.listAll
    "GitRepository"
    (Samples.repository (Some {| Sourcev1.Revision := "main/1a2b" |}))
    (Some [Samples.overridden; Samples.stale])
  = (Controllers.Returns [Specified.request_for Samples.stale],
     Some [Samples.overridden; Samples.stale]).
Proof.
  apply (requests_exactly_for_due_deployments Samples.listAll
           (Some [Samples.overridden; Samples.stale]) "GitRepository"
           "*v1beta2.GitRepository" _ {| Sourcev1.Revision := "main/1a2b" |}
           [Samples.overridden; Samples.stale]).
  reflexivity.
Defined.

Lemma mapper_degenerate_cases_witness :
  Controllers.requestsForRevisionChangeOf Samples.cluster Samples.listAll
    "GitRepository"
    (Samples.repository (Some {| Sourcev1.Revision := "main/1a2b" |})) None
  = (Controllers.Returns [], None) ∧
  Controllers.requestsForRevisionChangeOf Samples.cluster Samples.listAll
    "GitRepository" (Samples.repository None) (Some [Samples.stale])
  = (Controllers.Returns [], Some [Samples.stale]) ∧
  ∃ msg,
    (Controllers.requestsForRevisionChangeOf Samples.cluster Samples.listAll
       "GitRepository" Samples.configMap (Some [Samples.stale])).1
    = Controllers.Panics msg.
Proof.
  destruct (mapper_degenerate_cases Samples.listAll None "GitRepository")
    as (_ & Hfails & _ & _).
  destruct (mapper_degenerate_cases Samples.listAll (Some [Samples.stale])
              "GitRepository")
    as (Hnil & _ & Hpanic & _).
  split_and!.
  - apply (Hfails _ _ _ "connection refused"). reflexivity.
  - apply Hnil.
  - apply Hpanic. reflexivity.
Defined.

Section IndexBy.

Import Controllers.

(** C9: the indexer yields no key for an object that is not a
    KluctlDeployment and for a deployment whose spec.sourceRef.kind is not
    the indexed kind; for a deployment of the indexed kind it yields the
    one key namespace/name, where name is spec.sourceRef.name and
    namespace is spec.sourceRef.namespace when that is not empty and the
    deployment's own namespace otherwise. *)
Theorem indexBy_keys kind :
  (∀ goType meta artifact,
      indexBy kind (Runtime.SourceObject goType meta artifact) = []) ∧
  (∀ goType meta, indexBy kind (Runtime.OtherObject goType meta) = []) ∧
  (∀ k, Kind (SourceRef (Spec k)) ≠ kind →
        indexBy kind (Runtime.KluctlDeploymentObject k) = []) ∧
  (∀ k, Kind (SourceRef (Spec k)) = kind →
        Namespace (SourceRef (Spec k)) ≠ "" →
        indexBy kind (Runtime.KluctlDeploymentObject k)
        = [Namespace (SourceRef (Spec k)) +:+ "/"
           +:+ Name (SourceRef (Spec k))]) ∧
  (∀ k, Kind (SourceRef (Spec k)) = kind →
        Namespace (SourceRef (Spec k)) = "" →
        indexBy kind (Runtime.KluctlDeploymentObject k)
        = [GetNamespace k +:+ "/" +:+ Name (SourceRef (Spec k))]).
Proof.
  split_and!; try done.
  - intros k Hkind. unfold indexBy. by case_bool_decide.
  - intros k Hkind Hns. unfold indexBy.
    case_bool_decide; [|done]. by case_bool_decide.
  - intros k Hkind Hns. unfold indexBy.
    case_bool_decide; [|done]. by case_bool_decide.
Qed.

End IndexBy.

Lemma indexBy_keys_witness :
  Controllers.indexBy "GitRepository"
    (Runtime.KluctlDeploymentObject Samples.stale) = ["flux-system/podinfo"] ∧
  Controllers.indexBy "GitRepository"
    (Runtime.KluctlDeploymentObject Samples.overridden) = ["apps/podinfo"] ∧
  Controllers.indexBy "HelmRepository"
    (Runtime.KluctlDeploymentObject Samples.stale) = [] ∧
  Controllers.indexBy "GitRepository" Samples.configMap = [].
Proof.
  destruct (indexBy_keys "GitRepository")
    as (_ & Hother & _ & Hreferenced & Hown).
  destruct (indexBy_keys "HelmRepository") as (_ & _ & Hkind & _).
  split_and!.
  - apply (Hreferenced Samples.stale); [reflexivity | discriminate].
  - apply (Hown Samples.overridden); reflexivity.
  - apply (Hkind Samples.stale). discriminate.
  - apply Hother.
Defined.

(** ** Trimming at any limit *)

Section TrimmingAtAnyLimit.

Implicit Types str t : string.

Lemma trimString_negative str limit :
  limit < 0 → trimString str limit = None.
Proof.
  intros Hneg. unfold trimString, Go.slice_to.
  pose proof (len_nonneg str).
  destruct (Z.leb_spec (Go.len str) limit); [lia|].
  by destruct (Z.leb_spec 0 limit); [lia|].
Qed.

Lemma trimString_nonneg str limit :
  0 <= limit →
  trimString str limit
  = Some (if Go.len str <=? limit then str
          else substring 0 (Z.to_nat limit) str +:+ "...").
Proof.
  intros Hlimit. unfold trimString.
  destruct (Z.leb_spec (Go.len str) limit); [done|].
  rewrite slice_to_in_range by lia. done.
Qed.

Lemma len_cut str limit :
  0 <= limit < Go.len str →
  Go.len (substring 0 (Z.to_nat limit) str +:+ "...") = limit + 3.
Proof.
  intros [H0 Hlt]. unfold Go.len in *.
  rewrite length_append, length_substring_prefix by lia.
  simpl String.length. lia.
Qed.

Lemma prefix_of_cut str (n : nat) :
  (n ≤ String.length str)%nat →
  substring 0 n (substring 0 n str +:+ "...") = substring 0 n str.
Proof.
  intros Hn.
  rewrite <- (length_substring_prefix str n Hn) at 1.
  apply substring_prefix_append.
Qed.

(** X1: trimString panics exactly when the limit is negative: for a limit
    of zero or more it returns a string, whatever the input. *)
Theorem trimString_panics_iff_negative_limit str limit :
  trimString str limit = None ↔ limit < 0.
Proof.
  split.
  - intros Hnone. destruct (Z.lt_ge_cases limit 0) as [|Hge]; [done|].
    by rewrite trimString_nonneg in Hnone.
  - apply trimString_negative.
Qed.

(** X2: for a limit of zero or more, a string within the limit comes back
    as it is, and a longer one comes back with exactly limit + 3 bytes: its
    first limit bytes, kept, and the three dots.  The result is therefore
    longer than the limit, and longer than the input when the input has
    limit + 1 or limit + 2 bytes. *)
Theorem trimString_length_and_prefix str limit :
  0 <= limit →
  ∃ t, trimString str limit = Some t ∧
       Go.len t = (if Go.len str <=? limit then Go.len str else limit + 3) ∧
       substring 0 (Z.to_nat limit) t = substring 0 (Z.to_nat limit) str.
Proof.
  intros Hlimit. rewrite trimString_nonneg by done.
  eexists. split; [done|].
  destruct (Z.leb_spec (Go.len str) limit) as [|Hlt]; [done|].
  split.
  - apply len_cut. lia.
  - apply prefix_of_cut. unfold Go.len in Hlt. lia.
Qed.

Lemma trimString_length_and_prefix_witness :
  ∃ t, trimString "reconciliation failed" 5 = Some t ∧
       Go.len t = 8 ∧ substring 0 5 t = "recon".
Proof.
  destruct (trimString_length_and_prefix "reconciliation failed" 5)
    as (t & Ht & Hlen & Hprefix); [lia|].
  by exists t.
Defined.

(** X3: trimming twice at the same limit is trimming once; the second
    pass finds limit + 3 bytes, cuts the dots off and puts them back. *)
Theorem trimString_twice str limit :
  trimString str limit ≫= (λ t, trimString t limit) = trimString str limit.
Proof.
  destruct (Z.lt_ge_cases limit 0) as [Hneg|Hge].
  - by rewrite trimString_negative.
  - rewrite trimString_nonneg by done. simpl.
    rewrite trimString_nonneg by done. f_equal.
    destruct (Z.leb_spec (Go.len str) limit) as [Hle|Hlt].
    + by destruct (Z.leb_spec (Go.len str) limit); [|lia].
    + rewrite len_cut by lia.
      destruct (Z.leb_spec (limit + 3) limit); [lia|].
      rewrite prefix_of_cut; [done|]. unfold Go.len in Hlt. lia.
Qed.

End TrimmingAtAnyLimit.

(** ** The timeout against the interval *)

Section TimeoutAgainstInterval.

Implicit Types k : KluctlDeployment.

(** X5: without a timeout override, the timeout is shorter than the
    interval exactly when the interval is longer than 30 seconds; for an
    interval of 30 seconds or less the 30-second floor makes the timeout
    at least as long as the interval. *)
Theorem GetTimeout_shorter_than_interval k :
  Timeout (Spec k) = None →
  Go.in_int64 (Interval (Spec k)) →
  GetTimeout k < Interval (Spec k) ↔ 30 * Go.Second < Interval (Spec k).
Proof.
  unfold GetTimeout, Go.sub64, Go.wrap64, Go.in_int64,
    Go.MinInt64, Go.MaxInt64, Go.Second.
  intros -> Hrange. cbv zeta.
  set (i := Interval (Spec k)) in *.
  destruct (Z.lt_ge_cases i (- 2 ^ 63 + 30 * 1000000000)) as [Hlow|Hhigh].
  - replace ((i - 30 * 1000000000 + 2 ^ 63) mod 2 ^ 64)
      with (i - 30 * 1000000000 + 2 ^ 63 + 2 ^ 64).
    + match goal with |- context [?a <? ?b] => destruct (Z.ltb_spec a b) end;
        lia.
    + symmetry. rewrite <- (Z_mod_plus_full _ 1). rewrite Z.mod_small; lia.
  - rewrite Z.mod_small by lia.
    match goal with |- context [?a <? ?b] => destruct (Z.ltb_spec a b) end;
      lia.
Qed.

Lemma GetTimeout_shorter_than_interval_witness :
  GetTimeout Samples.fresh < Interval (Spec Samples.fresh)
  ↔ 30 * Go.Second < Interval (Spec Samples.fresh).
Proof.
  apply (GetTimeout_shorter_than_interval Samples.fresh); [reflexivity|].
  vm_compute. split; discriminate.
Defined.

(** X6: without a timeout override, an interval within 30 seconds of the
    least int64 makes the subtraction wrap around: the timeout is the
    interval less 30 seconds plus 2^64 nanoseconds, more than the greatest
    duration less 30 seconds. *)
Theorem GetTimeout_wraps_around k :
  Timeout (Spec k) = None →
  Go.MinInt64 <= Interval (Spec k) < Go.MinInt64 + 30 * Go.Second →
  GetTimeout k = Interval (Spec k) - 30 * Go.Second + 2 ^ 64 ∧
  Go.MaxInt64 - 30 * Go.Second < GetTimeout k <= Go.MaxInt64.
Proof.
  unfold GetTimeout, Go.sub64, Go.wrap64, Go.MinInt64, Go.MaxInt64, Go.Second.
  intros -> Hrange. cbv zeta.
  set (i := Interval (Spec k)) in *.
  replace ((i - 30 * 1000000000 + 2 ^ 63) mod 2 ^ 64)
    with (i - 30 * 1000000000 + 2 ^ 63 + 2 ^ 64).
  - match goal with |- context [?a <? ?b] => destruct (Z.ltb_spec a b) end;
      lia.
  - symmetry. rewrite <- (Z_mod_plus_full _ 1). rewrite Z.mod_small; lia.
Qed.

Lemma GetTimeout_wraps_around_witness :
  GetTimeout
    (Samples.deployment "web"
       (Samples.spec_of (Samples.gitRef "") Go.MinInt64 None)
       (Samples.status_of [] ""))
  = Go.MaxInt64 - 30 * Go.Second + 1.
Proof.
  destruct (GetTimeout_wraps_around
              (Samples.deployment "web"
                 (Samples.spec_of (Samples.gitRef "") Go.MinInt64 None)
                 (Samples.status_of [] "")))
    as [Heq _]; [reflexivity | vm_compute; split; [discriminate|reflexivity] |].
  rewrite Heq. reflexivity.
Defined.

End TimeoutAgainstInterval.

(** ** The four helpers side by side *)

Section HelpersSideBySide.

Import Specified Observations.

Implicit Types k : KluctlDeployment.
Implicit Types status reason message revision : string.
Implicit Types c : Metav1.Condition.

Lemma helper_results_returns now k status reason revision message :
  helper_results now k status reason revision message
  = [ Some (conditionSet now k
              (readyWith Metav1.ConditionUnknown Meta.ProgressingReason
                         message));
      Some (conditionSet now k (healthyWith status reason message));
      Some (record_attempt
              (conditionSet now k (readyWith status reason message))
              revision);
      Some (record_attempt
              (conditionSet now k
                 (readyWith Metav1.ConditionFalse reason message))
              revision) ].
Proof.
  unfold helper_results.
  destruct (KluctlDeploymentNotReady_returns now k revision reason message)
    as (k' & -> & Hready).
  rewrite SetKluctlDeploymentReadiness_returns in Hready.
  injection Hready as <-.
  by rewrite KluctlDeploymentProgressing_returns,
    SetKluctlDeploymentHealthiness_returns,
    SetKluctlDeploymentReadiness_returns.
Qed.

Lemma stored_messages_truncated now k status reason revision message :
  stored_messages now k status reason revision message
  = replicate 4 (Some (truncated message)).
Proof.
  pose proof (helper_results_returns now k status reason revision message)
    as Hres.
  unfold helper_results in Hres. injection Hres as Hp Hh Hr Hn.
  unfold stored_messages. rewrite Hp, Hh, Hr, Hn.
  simpl replicate. repeat f_equal.
  - by apply (stored_message_conditionSet now k _
                (readyWith Metav1.ConditionUnknown Meta.ProgressingReason
                           message)).
  - by apply (stored_message_conditionSet now k _
                (healthyWith status reason message)).
  - by apply (stored_message_conditionSet now k _
                (readyWith status reason message)).
  - by apply (stored_message_conditionSet now k _
                (readyWith Metav1.ConditionFalse reason message)).
Qed.

(** X4: KluctlDeploymentNotReady is SetKluctlDeploymentReadiness with the
    status False, for every input: the second trimming of the message and
    the guarded second assignment of the revision change nothing.  In
    particular an empty revision is recorded too, and replaces the last
    attempted revision. *)
Theorem KluctlDeploymentNotReady_is_readiness_false
    now k revision reason message :
  KluctlDeploymentNotReady now k revision reason message
  = SetKluctlDeploymentReadiness now k Metav1.ConditionFalse reason
      message revision
  ∧ (λ k', LastAttemptedRevision (Status k'))
      <$> KluctlDeploymentNotReady now k revision reason message
    = Some revision.
Proof.
  destruct (KluctlDeploymentNotReady_returns now k revision reason message)
    as (k' & Hnot & Hready).
  split; [congruence|].
  rewrite Hnot. rewrite SetKluctlDeploymentReadiness_returns in Hready.
  by injection Hready as <-.
Qed.

(** X7: the message a helper stores has the length of the message given
    when that is at most 20000 bytes, and 20003 bytes otherwise: a stored
    message can exceed MaxConditionMessageLength, by the three dots. *)
Theorem stored_message_length now k status reason revision message :
  Forall (λ m, ∃ stored, m = Some stored ∧
                 Go.len stored
                 = (if Go.len message <=? MaxConditionMessageLength
                    then Go.len message else MaxConditionMessageLength + 3))
         (stored_messages now k status reason revision message).
Proof.
  rewrite stored_messages_truncated. apply Forall_replicate.
  eexists. split; [done|]. unfold truncated.
  destruct (Z.leb_spec (Go.len message) MaxConditionMessageLength); [done|].
  apply len_cut. pose proof MaxConditionMessageLength_nonneg. lia.
Qed.

(** X8: no condition helper touches anything but the condition list, the
    observed generation and the last attempted revision: type and object
    metadata, spec, the reconcile-request status and the last deployed
    revision are those of the input, and so are the timeout, the retry
    interval, the index keys and the reconcile request of the object.
    KluctlDeploymentProgressing and SetKluctlDeploymentHealthiness keep the
    observed generation and the last attempted revision as well. *)
Theorem helpers_keep_the_object now k status reason revision message :
  Forall (λ r, ∃ k', r = Some k' ∧
                 unattempted k' = unattempted k ∧
                 GetTimeout k' = GetTimeout k ∧
                 GetRetryInterval k' = GetRetryInterval k ∧
                 GetDependsOn k' = GetDependsOn k ∧
                 request_for k' = request_for k ∧
                 ∀ kind,
                   Controllers.indexBy kind (Runtime.KluctlDeploymentObject k')
                   = Controllers.indexBy kind
                       (Runtime.KluctlDeploymentObject k))
         (helper_results now k status reason revision message)
  ∧ Forall (λ r, ∃ k', r = Some k' ∧
                   ObservedGeneration (Status k')
                   = ObservedGeneration (Status k) ∧
                   LastAttemptedRevision (Status k')
                   = LastAttemptedRevision (Status k))
           (take 2 (helper_results now k status reason revision message)).
Proof.
  rewrite helper_results_returns. split.
  - repeat apply Forall_cons_2; [..|apply Forall_nil_2];
      by eexists; split_and!.
  - simpl take. repeat apply Forall_cons_2; [..|apply Forall_nil_2];
      by eexists; split_and!.
Qed.

End HelpersSideBySide.

(** ** Setting a condition again, and the types in the list *)

Section SettingAgain.

Import Specified Observations.

Implicit Types k : KluctlDeployment.
Implicit Types c : Metav1.Condition.
Implicit Types cs : list Metav1.Condition.

(** A condition that already carries what the new one brings is left as it
    is, transition time included. *)
Lemma update_existing_same now c c' :
  Metav1.Status c' = Metav1.Status c →
  Metav1.Reason c' = Metav1.Reason c →
  Metav1.Message c' = Metav1.Message c →
  Metav1.ObservedGeneration c' = Metav1.ObservedGeneration c →
  Apimeta.update_existing now c c' = c'.
Proof.
  destruct c' as [ty st og ltt rs msg]. simpl. intros -> -> -> ->.
  unfold Apimeta.update_existing. simpl.
  by rewrite bool_decide_false by (intros Hne; by apply Hne).
Qed.

Lemma alter_fixed {A} (f : A → A) (l : list A) i x :
  l !! i = Some x → f x = x → alter f i l = l.
Proof.
  intros Hi Hx. apply list_eq. intros j.
  destruct (decide (i = j)) as [<-|Hne].
  - by rewrite list_lookup_alter_eq, Hi; simpl; rewrite Hx.
  - by rewrite list_lookup_alter_ne.
Qed.

Lemma SetStatusCondition_again now later cs c :
  Apimeta.SetStatusCondition later (Apimeta.SetStatusCondition now cs c) c
  = Apimeta.SetStatusCondition now cs c.
Proof.
  destruct (SetStatusCondition_upsert now cs c)
    as (c' & Hup & (Hty & Hst & Hrs & Hmsg) & Hog).
  apply Upsert_find in Hup as [i Hfind]. rewrite Hty in Hfind.
  unfold Apimeta.SetStatusCondition at 1. rewrite Hfind.
  apply list_find_Some in Hfind as (Hi & _ & _).
  eapply alter_fixed; [done|]. by apply update_existing_same.
Qed.

Lemma conditionSet_again now later k c :
  conditionSet later (conditionSet now k c) c = conditionSet now k c.
Proof.
  unfold conditionSet at 1. rewrite GetConditions_conditionSet.
  rewrite SetStatusCondition_again.
  by destruct k as [tm om sp [rr og cs ldr lar]].
Qed.

Lemma conditionSet_record_attempt now k c revision :
  conditionSet now (record_attempt k revision) c
  = record_attempt (conditionSet now k c) revision.
Proof. by destruct k as [tm om sp [rr og cs ldr lar]]. Qed.

Lemma record_attempt_again k revision :
  record_attempt (record_attempt k revision) revision
  = record_attempt k revision.
Proof. by destruct k as [tm om sp [rr og cs ldr lar]]. Qed.

Lemma SetKluctlDeploymentReadiness_records
    now k status reason message revision :
  SetKluctlDeploymentReadiness now k status reason message revision
  = Some (record_attempt
            (conditionSet now k (readyWith status reason message)) revision).
Proof. by rewrite SetKluctlDeploymentReadiness_returns. Qed.

Lemma record_attempt_set_again now later k c revision :
  record_attempt
    (conditionSet later (record_attempt (conditionSet now k c) revision) c)
    revision
  = record_attempt (conditionSet now k c) revision.
Proof.
  by rewrite conditionSet_record_attempt, conditionSet_again,
    record_attempt_again.
Qed.

(** X9: every condition helper is idempotent, also across clock readings:
    applied to its own result with the same arguments at a later time it
    returns that result unchanged, so that repeating a status update does
    not move the transition time of the condition.  (The condition list is
    updated by apimachinery's SetStatusCondition, as modelled.) *)
Theorem helpers_are_idempotent now later k status reason revision message :
  helper_results_twice now later k status reason revision message
  = helper_results now k status reason revision message.
Proof.
  pose proof (helper_results_returns now k status reason revision message)
    as Hres.
  unfold helper_results in Hres. injection Hres as Hp Hh Hr Hn.
  unfold helper_results_twice, helper_results.
  rewrite Hp, Hh, Hr, Hn. simpl.
  f_equal; [|f_equal; [|f_equal; [|f_equal]]].
  - rewrite KluctlDeploymentProgressing_returns. f_equal.
    apply conditionSet_again.
  - rewrite SetKluctlDeploymentHealthiness_returns. f_equal.
    apply conditionSet_again.
  - rewrite SetKluctlDeploymentReadiness_records. f_equal.
    apply record_attempt_set_again.
  - destruct (KluctlDeploymentNotReady_returns later
                (record_attempt
                   (conditionSet now k
                      (readyWith Metav1.ConditionFalse reason message))
                   revision) revision reason message)
      as (k' & -> & Hready).
    rewrite SetKluctlDeploymentReadiness_records in Hready.
    injection Hready as <-. f_equal.
    apply record_attempt_set_again.
Qed.

Lemma Upsert_types c cs cs' :
  Upsert c cs cs' →
  NoDup (Metav1.Type_ <$> cs) → NoDup (Metav1.Type_ <$> cs').
Proof.
  intros [cs0 Hno | l1 old l2 Hno Hty].
  - rewrite fmap_app. intros Hdup. apply NoDup_app. split_and!; [done| |].
    + intros ty (x & -> & Hx)%list_elem_of_fmap Hin.
      apply list_elem_of_singleton in Hin.
      rewrite Forall_forall in Hno. by apply (Hno x Hx).
    + apply NoDup_singleton.
  - by rewrite !fmap_app, !fmap_cons, Hty.
Qed.

(** X10: the helpers keep condition types unique: when no two conditions
    of the object have the same type, no two conditions of the object a
    helper returns have.  (The condition list is updated by apimachinery's
    SetStatusCondition, as modelled.) *)
Theorem helpers_keep_types_unique now k status reason revision message :
  NoDup (condition_types k) →
  Forall (λ r, ∃ k', r = Some k' ∧ NoDup (condition_types k'))
         (helper_results now k status reason revision message).
Proof.
  intros Hdup. rewrite helper_results_returns.
  repeat apply Forall_cons_2; [..|apply Forall_nil_2].
  all: eexists; split; [done|].
  all: match goal with
       | |- NoDup (condition_types (record_attempt (conditionSet _ _ ?c) _)) =>
           change (NoDup (condition_types (conditionSet now k c)))
       | _ => idtac
       end.
  all: match goal with
       | |- NoDup (condition_types (conditionSet _ _ ?c)) =>
           destruct (conditionSet_upsert now k c) as (c' & Hup & _)
       end.
  all: by eapply Upsert_types.
Qed.

Lemma helpers_keep_types_unique_witness :
  Forall (λ r, ∃ k', r = Some k' ∧ NoDup (condition_types k'))
         (helper_results 2000 Samples.overridden "True" "Succeeded"
                         "main/3c4d" "reconciling").
Proof.
  apply helpers_keep_types_unique.
  unfold condition_types. simpl.
  apply NoDup_cons. split.
  - intros Hin. apply list_elem_of_singleton in Hin. discriminate.
  - apply NoDup_singleton.
Defined.

End SettingAgain.

(** ** Index keys *)

Section IndexKeys.

Import Observations.

Lemma key_inj ns1 n1 ns2 n2 :
  has_slash ns1 = false → has_slash ns2 = false →
  ns1 +:+ "/" +:+ n1 = ns2 +:+ "/" +:+ n2 → ns1 = ns2 ∧ n1 = n2.
Proof.
  revert ns2. induction ns1 as [|a ns1 IH]; intros [|b ns2]; simpl.
  - intros _ _ Heq. by injection Heq.
  - intros _ Hb Heq. injection Heq as <- _.
    by rewrite Ascii.eqb_refl in Hb.
  - intros Ha _ Heq. injection Heq as -> _.
    by rewrite Ascii.eqb_refl in Ha.
  - intros [_ Ha]%orb_false_iff [_ Hb]%orb_false_iff Heq.
    injection Heq as -> Heq.
    by destruct (IH ns2 Ha Hb Heq) as [-> ->].
Qed.

Lemma indexBy_key_iff kind obj k :
  has_slash (key_namespace k) = false →
  has_slash (Metav1.Namespace (Runtime.metaOf obj)) = false →
  Controllers.keyOf obj
    ∈ Controllers.indexBy kind (Runtime.KluctlDeploymentObject k)
  ↔ refers_to kind obj k.
Proof.
  intros Hk Hobj. unfold Controllers.indexBy, refers_to.
  fold (key_namespace k).
  unfold Controllers.keyOf, Runtime.NamespacedName_String,
    Runtime.ObjectKeyFromObject. simpl.
  case_bool_decide as Hkind.
  - rewrite list_elem_of_singleton. split.
    + intros Heq. apply key_inj in Heq as [? ?]; done.
    + by intros (_ & -> & ->).
  - split; [by intros ?%not_elem_of_nil | by intros [? _]].
Qed.

(** X11: the indexer files a deployment under the key the mapper looks
    up for a source object exactly when the deployment refers to that
    object: its spec.sourceRef has the indexed kind, the object's name, and
    the object's namespace (the deployment's own namespace standing in for
    an empty spec.sourceRef.namespace).  This needs the two namespaces to
    be free of the separator "/". *)
Theorem indexBy_selects_referring kind obj k :
  has_slash (key_namespace k) = false →
  has_slash (Metav1.Namespace (Runtime.metaOf obj)) = false →
  Controllers.keyOf obj
    ∈ Controllers.indexBy kind (Runtime.KluctlDeploymentObject k)
  ↔ refers_to kind obj k.
Proof. apply indexBy_key_iff. Qed.

Lemma indexBy_selects_referring_witness :
  Controllers.keyOf (Samples.repository None)
    ∈ Controllers.indexBy "GitRepository"
        (Runtime.KluctlDeploymentObject Samples.overridden)
  ∧ ¬ refers_to "GitRepository" (Samples.repository None) Samples.stale.
Proof.
  split.
  - apply (indexBy_selects_referring "GitRepository"
             (Samples.repository None) Samples.overridden);
      [reflexivity | reflexivity |].
    by split_and!.
  - intros Hrefers.
    apply (indexBy_selects_referring "GitRepository"
             (Samples.repository None) Samples.stale) in Hrefers;
      [|reflexivity|reflexivity].
    apply list_elem_of_singleton in Hrefers. discriminate.
Defined.

(** With a separator in a namespace two different references share a key. *)
Example keys_collide_on_a_separator :
  Controllers.keyOf
    (Runtime.OtherObject "*v1beta2.GitRepository"
       {| Metav1.Name := "c"; Metav1.Namespace := "a/b";
          Metav1.Generation := 1 |})
  = Controllers.keyOf
      (Runtime.OtherObject "*v1beta2.GitRepository"
         {| Metav1.Name := "b/c"; Metav1.Namespace := "a";
            Metav1.Generation := 1 |}).
Proof. reflexivity. Qed.

End IndexKeys.

(** ** The mapper over the listed deployments *)

Section MapperOverTheList.

Import Runtime Controllers Specified Observations.

Context {Cluster : Type}.
Context (List : Cluster → string → string → string + list KluctlDeployment).

Implicit Types w : Cluster.
Implicit Types items all before after : list KluctlDeployment.

Lemma mapper_lists w indexKey goType meta artifact items :
  List w indexKey (keyOf (SourceObject goType meta (Some artifact)))
  = inr items →
  requestsForRevisionChangeOf Cluster List indexKey
    (SourceObject goType meta (Some artifact)) w
  = (Returns (request_for
                <$> filter (due (Sourcev1.Revision artifact)) items), w).
Proof.
  intros Hlist.
  unfold requestsForRevisionChangeOf, list_matching; simpl.
  unfold mbind, M_bind, mret, M_ret. rewrite Hlist.
  by rewrite fold_request_step.
Qed.

Lemma filter_agree {A} (P Q : A → Prop)
    `{!∀ x, Decision (P x), !∀ x, Decision (Q x)} (l : list A) :
  Forall (λ x, P x ↔ Q x) l → filter P l = filter Q l.
Proof.
  induction 1 as [|x l Hx _ IH]; [done|].
  destruct (decide (P x)) as [HP|HP].
  - rewrite !filter_cons_True by tauto. by rewrite IH.
  - rewrite !filter_cons_False by tauto. by rewrite IH.
Qed.

(** X12: recording an attempt decides the request.  For a deployment on
    which SetKluctlDeploymentReadiness has recorded a revision, an artifact
    event makes no request when the artifact has that revision, and makes
    the deployment's request, in its place among the others, when the
    artifact has another revision. *)
Theorem recorded_attempt_decides_request
    w indexKey goType meta artifact before after
    now k status reason message revision k' :
  SetKluctlDeploymentReadiness now k status reason message revision
  = Some k' →
  List w indexKey (keyOf (SourceObject goType meta (Some artifact)))
  = inr (before ++ k' :: after)%list →
  requestsForRevisionChangeOf Cluster List indexKey
    (SourceObject goType meta (Some artifact)) w
  = (Returns
       ((request_for <$> filter (due (Sourcev1.Revision artifact)) before)
        ++ (if bool_decide (revision = Sourcev1.Revision artifact)
            then [] else [request_for k])
        ++ (request_for <$> filter (due (Sourcev1.Revision artifact)) after))%list,
     w).
Proof.
  intros Hset Hlist. rewrite (mapper_lists _ _ _ _ _ _ Hlist).
  rewrite SetKluctlDeploymentReadiness_records in Hset.
  injection Hset as <-.
  rewrite filter_app, fmap_app. do 2 f_equal.
  case_bool_decide as Hrev.
  - by rewrite filter_cons_False by (intros Hdue; by apply Hdue).
  - by rewrite filter_cons_True by (intros Hdue; by apply Hrev).
Qed.

(** X13: the mapper makes at most one request for each listed deployment:
    when the listed deployments have distinct namespace/name pairs, the
    requests are distinct, each is the request of a listed deployment, and
    there are no more of them than deployments. *)
Theorem requests_are_distinct w indexKey goType meta artifact items :
  List w indexKey (keyOf (SourceObject goType meta (Some artifact)))
  = inr items →
  NoDup (request_for <$> items) →
  ∃ reqs,
    requestsForRevisionChangeOf Cluster List indexKey
      (SourceObject goType meta (Some artifact)) w = (Returns reqs, w) ∧
    NoDup reqs ∧
    reqs ⊆ request_for <$> items ∧
    (length reqs ≤ length items)%nat.
Proof.
  intros Hlist Hdup. rewrite (mapper_lists _ _ _ _ _ _ Hlist).
  eexists. split; [done|].
  assert (Hsub : (request_for <$> filter (due (Sourcev1.Revision artifact))
                                    items)
                 `sublist_of` (request_for <$> items)).
  { apply fmap_sublist, sublist_filter. }
  split_and!.
  - by eapply sublist_NoDup.
  - intros r Hr. by eapply elem_of_sublist.
  - apply sublist_length in Hsub. rewrite !length_fmap in Hsub.
    by rewrite length_fmap.
Qed.

(** X14: the indexer and the mapper together.  When the client answers the
    mapper's List from the field index that [indexBy kind] builds over the
    deployments of the cluster, an artifact event for a source object
    makes the requests of exactly the deployments that refer to the object
    and have not attempted the artifact's revision, in the order of the
    cluster's list.  This needs the namespaces to be free of "/". *)
Theorem mapper_over_the_index w indexKey kind goType meta artifact all :
  let obj := SourceObject goType meta (Some artifact) in
  List w indexKey (keyOf obj) = inr (indexed kind (keyOf obj) all) →
  has_slash (Metav1.Namespace meta) = false →
  Forall (λ d, has_slash (key_namespace d) = false) all →
  requestsForRevisionChangeOf Cluster List indexKey obj w
  = (Returns (request_for
                <$> filter (λ d, refers_to kind obj d ∧
                                 due (Sourcev1.Revision artifact) d) all),
     w).
Proof.
  intros obj Hlist Hmeta Hall. unfold obj in *.
  rewrite (mapper_lists _ _ _ _ _ _ Hlist). do 2 f_equal.
  unfold indexed. rewrite list_filter_filter. f_equal.
  apply filter_agree. eapply Forall_impl; [exact Hall|].
  intros d Hd. simpl.
  rewrite (indexBy_key_iff kind (SourceObject goType meta (Some artifact))
             d Hd Hmeta). tauto.
Qed.

End MapperOverTheList.

Lemma recorded_attempt_decides_request_witness :
  ∃ k',
    SetKluctlDeploymentReadiness 2000 Samples.fresh "True" "Succeeded"
      "deployed" "main/1a2b" = Some k' ∧
    Controllers.requestsForRevisionChangeOf Samples.cluster Samples.listAll
      "GitRepository"
      (Samples.repository (Some {| Sourcev1.Revision := "main/1a2b" |}))
      (Some [Samples.stale; k'])
    = (Controllers.Returns [Specified.request_for Samples.stale],
       Some [Samples.stale; k']).
Proof.
  eexists. split; [reflexivity|].
  eapply (recorded_attempt_decides_request Samples.listAll _ "GitRepository"
           "*v1beta2.GitRepository" _ {| Sourcev1.Revision := "main/1a2b" |}
           [Samples.stale] [] 2000 Samples.fresh "True" "Succeeded"
           "deployed" "main/1a2b");
    reflexivity.
Defined.

Lemma requests_are_distinct_witness :
  ∃ reqs,
    Controllers.requestsForRevisionChangeOf Samples.cluster Samples.listAll
      "GitRepository"
      (Samples.repository (Some {| Sourcev1.Revision := "main/5e6f" |}))
      (Some [Samples.overridden; Samples.stale])
    = (Controllers.Returns reqs, Some [Samples.overridden; Samples.stale]) ∧
    NoDup reqs ∧ length reqs = 2%nat.
Proof.
  destruct (requests_are_distinct Samples.listAll
              (Some [Samples.overridden; Samples.stale]) "GitRepository"
              "*v1beta2.GitRepository"
              {| Metav1.Name := "podinfo"; Metav1.Namespace := "apps";
                 Metav1.Generation := 1 |}
              {| Sourcev1.Revision := "main/5e6f" |}
              [Samples.overridden; Samples.stale])
    as (reqs & Hreqs & Hdup & _ & _).
  - reflexivity.
  - apply NoDup_cons. split; [|apply NoDup_singleton].
    intros Hin. apply list_elem_of_singleton in Hin. discriminate.
  - exists reqs. split_and!; [exact Hreqs | exact Hdup |].
    vm_compute in Hreqs. by injection Hreqs as <-.
Defined.

Lemma mapper_over_the_index_witness :
  Controllers.requestsForRevisionChangeOf Samples.cluster
    (Observations.listFromIndex "GitRepository") "GitRepository"
    (Samples.repository (Some {| Sourcev1.Revision := "main/5e6f" |}))
    (Some [Samples.overridden; Samples.stale])
  = (Controllers.Returns [Specified.request_for Samples.overridden],
     Some [Samples.overridden; Samples.stale]).
Proof.
  apply (mapper_over_the_index (Observations.listFromIndex "GitRepository")
           (Some [Samples.overridden; Samples.stale]) "GitRepository"
           "GitRepository" "*v1beta2.GitRepository"
           {| Metav1.Name := "podinfo"; Metav1.Namespace := "apps";
              Metav1.Generation := 1 |}
           {| Sourcev1.Revision := "main/5e6f" |}
           [Samples.overridden; Samples.stale]).
  - reflexivity.
  - reflexivity.
  - repeat apply Forall_cons_2; [reflexivity..|apply Forall_nil_2].
Defined.
